(** * Medication reminder relay: time normalisation, registration, dispatch

    A shallow embedding of [main.py]: the WhatsApp sender [send_whatsapp],
    the scheduling tool [schedule_reminder] with its inner callback [job],
    and the background loop [run_schedule].

    Conventions.
    - A Python [str] is a [string]; a character outside ASCII is carried as
      its UTF-8 bytes.  The character classes used below (white space,
      decimal digits, printable characters) are those of ASCII text.
    - Code that can raise returns a [result]; code that changes the process
      state (the scheduler's job list, standard output, the HTTP traffic)
      takes the state and returns the new one.
    - Library calls ([datetime.strptime], [strftime], [repr], the [schedule]
      package, [requests.post]) are modelled next to the line that uses
      them, each with the library behaviour it stands for.  Writing to
      standard output is taken to succeed. *)

From Stdlib Require Import String Ascii List Bool Arith Lia.
Import ListNotations.
Open Scope list_scope.
Open Scope string_scope.
Open Scope nat_scope.

(** ** Exceptions and results *)

Inductive exn : Type :=
| ValueError (msg : string)
| ScheduleValueError (msg : string)
| OtherException (cls msg : string).

(** [str(e)] *)
Definition str_exn (e : exn) : string :=
  match e with
  | ValueError m => m
  | ScheduleValueError m => m
  | OtherException _ m => m
  end.

Inductive result (A : Type) : Type :=
| Ret (a : A)
| Raise (e : exn).
Arguments Ret {A} a.
Arguments Raise {A} e.

Definition raised {A} (r : result A) : bool :=
  match r with Ret _ => false | Raise _ => true end.

(** ** Strings *)

Module Str.

Definition code (c : ascii) : nat := nat_of_ascii c.

(** [str.isspace] and the regular expression class [\s]: TAB, LF, VT, FF,
    CR, the separators FS, GS, RS, US and the space. *)
Definition isspace (c : ascii) : bool :=
  let n := code c in
  ((9 <=? n) && (n <=? 13)) || ((28 <=? n) && (n <=? 32)).

(** The class [\d], and the value of a digit. *)
Definition isdigit (c : ascii) : bool :=
  let n := code c in (48 <=? n) && (n <=? 57).

Definition digit_val (c : ascii) : nat := code c - 48.

Definition digit_in (lo hi : nat) (c : ascii) : bool :=
  isdigit c && (lo <=? digit_val c) && (digit_val c <=? hi).

Definition lower (c : ascii) : ascii :=
  let n := code c in
  if (65 <=? n) && (n <=? 90) then ascii_of_nat (n + 32) else c.

Fixpoint lstrip (s : string) : string :=
  match s with
  | String c s' => if isspace c then lstrip s' else s
  | EmptyString => EmptyString
  end.

Fixpoint rstrip (s : string) : string :=
  match s with
  | String c s' =>
      match rstrip s' with
      | EmptyString => if isspace c then EmptyString else String c EmptyString
      | r => String c r
      end
  | EmptyString => EmptyString
  end.

(** [s.strip()] *)
Definition strip (s : string) : string := rstrip (lstrip s).

(** [sub in s] *)
Fixpoint contains (sub s : string) : bool :=
  prefix sub s ||
  match s with
  | String _ s' => contains sub s'
  | EmptyString => false
  end.

Fixpoint mem (c : ascii) (s : string) : bool :=
  match s with
  | String d s' => Ascii.eqb c d || mem c s'
  | EmptyString => false
  end.

Definition digit_char (n : nat) : ascii := ascii_of_nat (48 + n).

(** The conversion [%02d] of a number below 100. *)
Definition pad2 (n : nat) : string :=
  String (digit_char (n / 10)) (String (digit_char (n mod 10)) EmptyString).

(** [str(n)] for a number below 100. *)
Definition dec (n : nat) : string :=
  if n <? 10 then String (digit_char n) EmptyString else pad2 n.

End Str.

(** ** Time Normalizer (lines 90-95) *)

Record datetime : Type := mk_datetime { hour : nat; minute : nat; second : nat }.

(** [datetime.strptime(s, "%I:%M %p")].  The format is compiled to the
    regular expression
      [(?P<I>1[0-2]|0[1-9]|[1-9]):(?P<M>[0-5]\d|\d)\s+(?P<p>am|pm)]
    matched case-insensitively at the start of [s]; each piece below takes
    the continuation [k] for what follows it, so that a failure further on
    comes back to the next alternative as in a backtracking matcher. *)
Module Strptime.
Import Str.

Definition orelse {A} (p q : option A) : option A :=
  match p with Some a => Some a | None => q end.

Section Pieces.
Context {A : Type}.

(** [1[0-2]|0[1-9]|[1-9]] *)
Definition re_I (k : nat -> string -> option A) (s : string) : option A :=
  orelse
    match s with
    | String c (String d r) =>
        if Ascii.eqb c "1" && digit_in 0 2 d then k (10 + digit_val d) r else None
    | _ => None
    end
    (orelse
       match s with
       | String c (String d r) =>
           if Ascii.eqb c "0" && digit_in 1 9 d then k (digit_val d) r else None
       | _ => None
       end
       match s with
       | String c r => if digit_in 1 9 c then k (digit_val c) r else None
       | _ => None
       end).

(** [[0-5]\d|\d] *)
Definition re_M (k : nat -> string -> option A) (s : string) : option A :=
  orelse
    match s with
    | String c (String d r) =>
        if digit_in 0 5 c && isdigit d then k (10 * digit_val c + digit_val d) r else None
    | _ => None
    end
    match s with
    | String c r => if isdigit c then k (digit_val c) r else None
    | _ => None
    end.

Definition re_lit (a : ascii) (k : string -> option A) (s : string) : option A :=
  match s with
  | String c r => if Ascii.eqb c a then k r else None
  | EmptyString => None
  end.

(** [\s+], greedy *)
Fixpoint re_spaces (k : string -> option A) (s : string) : option A :=
  match s with
  | String c r => if isspace c then orelse (re_spaces k r) (k r) else None
  | EmptyString => None
  end.

(** [am|pm], ignoring case; [k] receives [true] for pm *)
Definition re_p (k : bool -> string -> option A) (s : string) : option A :=
  match s with
  | String c (String d r) =>
      if Ascii.eqb (lower d) "m" then
        if Ascii.eqb (lower c) "a" then k false r
        else if Ascii.eqb (lower c) "p" then k true r
        else None
      else None
  | _ => None
  end.
End Pieces.

(** The groups of the match and the text left after it. *)
Definition format_regex_match (s : string) : option (nat * nat * bool * string) :=
  re_I (fun hh => re_lit ":" (re_M (fun mm => re_spaces (re_p (fun pm rest =>
    Some (hh, mm, pm, rest)))))) s.

Definition strptime (s : string) : result datetime :=
  match format_regex_match s with
  | None => Raise (ValueError ("time data does not match format"))
  | Some (hh, mm, pm, rest) =>
      match rest with
      | String _ _ => Raise (ValueError "unconverted data remains")
      | EmptyString =>
          let h :=
            if pm then (if hh =? 12 then hh else hh + 12)
            else (if hh =? 12 then 0 else hh) in
          Ret (mk_datetime h mm 0)
      end
  end.

(** [d.strftime("%H:%M:%S")] *)
Definition strftime (d : datetime) : string :=
  pad2 (hour d) ++ ":" ++ pad2 (minute d) ++ ":" ++ pad2 (second d).

End Strptime.

(** The body of the [try] of lines 90-95: the value bound to [t_24] for the
    entry [t].  A bare [except:] catches whatever the parse raises. *)
Definition t_24 (t : string) : string :=
  match Strptime.strptime (Str.strip t) with
  | Ret d => Strptime.strftime d
  | Raise _ => t
  end.

(** ** Python's [repr] of a list of strings (the [{times}] of line 100) *)

Module Repr.
Import Str.

Definition quote1 : ascii := ascii_of_nat 39.
Definition quote2 : ascii := ascii_of_nat 34.
Definition backslash : ascii := ascii_of_nat 92.

Definition hex_char (n : nat) : ascii :=
  if n <? 10 then ascii_of_nat (48 + n) else ascii_of_nat (87 + n).

(** One character inside the quotes [q]: the backslash and the quote are
    escaped, TAB, LF and CR have their letter, any other control character
    is written [\xNN]; every other character stands for itself. *)
Definition repr_char (q c : ascii) : string :=
  let n := code c in
  if Ascii.eqb c backslash then String backslash (String backslash EmptyString)
  else if Ascii.eqb c q then String backslash (String q EmptyString)
  else if n =? 9 then String backslash "t"
  else if n =? 10 then String backslash "n"
  else if n =? 13 then String backslash "r"
  else if (n <? 32) || (n =? 127) then
    String backslash (String "x" (String (hex_char (n / 16)) (String (hex_char (n mod 16)) EmptyString)))
  else String c EmptyString.

Fixpoint repr_body (q : ascii) (s : string) : string :=
  match s with
  | String c s' => repr_char q c ++ repr_body q s'
  | EmptyString => EmptyString
  end.

(** [repr(s)]: double quotes only when [s] has a single quote and no
    double quote. *)
Definition repr_str (s : string) : string :=
  let q := if mem quote1 s && negb (mem quote2 s) then quote2 else quote1 in
  String q (repr_body q s ++ String q EmptyString).

Fixpoint join (sep : string) (l : list string) : string :=
  match l with
  | [] => EmptyString
  | [x] => x
  | x :: l' => x ++ sep ++ join sep l'
  end.

(** [repr(l)] *)
Definition repr_list (l : list string) : string :=
  "[" ++ join ", " (map repr_str l) ++ "]".

End Repr.

(** ** Process state *)

(** One call of [requests.post]: the address and the bytes of the body. *)
Record Request : Type := mk_Request {
  req_url : string;
  req_data : string;
  req_headers : list (string * string)
}.

(** What [requests.post] does: a response with its status code and text, or
    an exception raised before any response (connection, timeout, ...). *)
Inductive post_outcome : Type :=
| Responds (status_code : nat) (text : string)
| Fails (e : exn).

(** What callbacks can touch: standard output and the HTTP calls made. *)
Record Env : Type := mk_Env {
  stdout : list string;
  http_log : list Request
}.

Definition print (line : string) (e : Env) : Env :=
  mk_Env (stdout e ++ [line]) (http_log e).

Definition log_request (r : Request) (e : Env) : Env :=
  mk_Env (stdout e) (http_log e ++ [r]).

(** ** The [schedule] package, as far as the program uses it *)

Module Schedule.
Import Str.

(** A job function: what [functools.partial(job, t=t)] does when called. *)
Definition callback : Type := Env -> result unit * Env.

(** A daily job: [at_time] as [Job.at] stored it, and the job function. *)
Record Job : Type := mk_Job {
  at_time : datetime;
  job_func : callback
}.

Definition at_end (s : string) : bool :=
  match s with
  | EmptyString => true
  | String c EmptyString => code c =? 10
  | _ => false
  end.

Definition two (c d : ascii) : nat := 10 * digit_val c + digit_val d.

(** The check [re.match(r"^[0-2]\d:[0-5]\d(:[0-5]\d)?$", time_str)] of
    [Job.at] for a daily job, with the numbers [split(":")] and [int]
    then read; [$] also matches before one final line feed. *)
Definition at_regex (s : string) : option (nat * nat * nat) :=
  match s with
  | String h1 (String h2 (String c1 (String m1 (String m2 r)))) =>
      if digit_in 0 2 h1 && isdigit h2 && Ascii.eqb c1 ":"
         && digit_in 0 5 m1 && isdigit m2 then
        match r with
        | String c2 (String s1 (String s2 r')) =>
            if Ascii.eqb c2 ":" && digit_in 0 5 s1 && isdigit s2 && at_end r'
            then Some (two h1 h2, two m1 m2, two s1 s2)
            else if at_end r then Some (two h1 h2, two m1 m2, 0) else None
        | _ => if at_end r then Some (two h1 h2, two m1 m2, 0) else None
        end
      else None
  | _ => None
  end.

(** [schedule.every().day.at(time_str)]: the time of day, or the error
    [Job.at] raises for a string it does not accept. *)
Definition every_day_at (time_str : string) : result datetime :=
  match at_regex time_str with
  | None =>
      Raise (ScheduleValueError
               "Invalid time format for a daily job (valid format is HH:MM(:SS)?)")
  | Some (h, m, s) =>
      if h <=? 23 then Ret (mk_datetime h m s)
      else Raise (ScheduleValueError "Invalid number of hours")
  end.

(** [.do(job_func)]: the job is appended to the scheduler's list. *)
Definition do (tm : datetime) (f : callback) (jobs : list Job) : list Job :=
  jobs ++ [mk_Job tm f].

Section Pending.
(** The package keeps, for each job, the instant of its next run and
    compares it with the clock.  [should_run now tm] stands for that
    comparison: whether a daily job set for [tm] is due at the poll
    made at instant [now]. *)
Variable should_run : nat -> datetime -> bool.

(** [for job in sorted(runnable_jobs): self._run_job(job)]: the job
    functions of the due jobs are called one after the other (jobs due
    together keep their order of registration); an exception raised by
    one of them leaves the loop. *)
Fixpoint run_all (js : list Job) (e : Env) : result unit * Env :=
  match js with
  | [] => (Ret tt, e)
  | j :: js' =>
      match job_func j e with
      | (Ret _, e') => run_all js' e'
      | (Raise x, e') => (Raise x, e')
      end
  end.

Definition runnable_jobs (now : nat) (jobs : list Job) : list Job :=
  filter (fun j => should_run now (at_time j)) jobs.

Definition run_pending (now : nat) (jobs : list Job) (e : Env) : result unit * Env :=
  run_all (runnable_jobs now jobs) e.
End Pending.

End Schedule.

(** ** Fields of a form-encoded body *)

(** The request announces [application/x-www-form-urlencoded] (line 59).
    In that format the pairs are separated by [&], and in a pair the name
    ends at the first [=]; empty pieces are skipped.  (The percent-decoding
    of names and values, which comes after, plays no part below.) *)
Module Form.

(** [s.split(sep)] *)
Fixpoint split (sep : ascii) (s : string) : list string :=
  match s with
  | EmptyString => [EmptyString]
  | String c s' =>
      if Ascii.eqb c sep then EmptyString :: split sep s'
      else match split sep s' with
           | x :: l => String c x :: l
           | [] => [String c EmptyString]
           end
  end.




End Form.

(** ** The program *)

(** The pydantic model [WhatsAppRequest]. *)
Record WhatsAppRequest : Type := mk_WhatsAppRequest {
  phone : string;
  message : string
}.

(** A Python [dict] with string keys and values. *)
Definition dict : Type := list (string * string).

(** The scheduler's job list together with what callbacks can touch. *)
Record World : Type := mk_World {
  jobs : list Schedule.Job;
  env : Env
}.

(** The pydantic model [ReminderInput]. *)
Module ReminderInput.
Record t : Type := mk {
  medicine_name : string;
  dose_times : list string;
  phone : string
}.
End ReminderInput.

(** The settings in force once start-up has passed. *)
Record Settings : Type := mk_Settings {
  OPENAI_API_KEY : string;
  Api_Url : string;
  Token : string
}.

(** Python's truth value of what [os.getenv] returns: [None] and the
    empty string are false. *)
Definition truthy (v : option string) : bool :=
  match v with
  | Some (String _ _) => true
  | _ => false
  end.

Definition getenv_value (v : option string) : string :=
  match v with
  | Some s => s
  | None => EmptyString
  end.

(** Lines 22-29, with [getenv] the environment after [load_dotenv()]. *)
Definition startup (getenv : string -> option string) : result Settings :=
  let api_key := getenv "API_KEY" in
  let url := getenv "Api_Url" in
  let token := getenv "Token" in
  if negb (truthy api_key) then
    Raise (ValueError "❌ OPENAI_API_KEY is not set")
  else if negb (truthy url) || negb (truthy token) then
    Raise (ValueError "❌ WhatsApp configuration missing")
  else
    Ret (mk_Settings (getenv_value api_key) (getenv_value url) (getenv_value token)).

Definition newline : string := String (ascii_of_nat 10) EmptyString.

Section Endpoint.

(** The agent run [Runner.run(agent, user_input, run_config=config)]: its
    final output, or the exception it raises, and what it did to the
    process state (the tool calls it chose to make). *)
Variable Runner_run : string -> World -> result string * World.

(** Lines 146-151. *)
Definition user_input (details : ReminderInput.t) : string :=
  newline ++ "    I need a reminder for my medicine."
    ++ newline ++ "    Medicine Name: " ++ ReminderInput.medicine_name details
    ++ newline ++ "    Dose Times: " ++ Repr.repr_list (ReminderInput.dose_times details)
    ++ newline ++ "    Phone Number: " ++ ReminderInput.phone details
    ++ newline ++ "    ".

(** Lines 145-154, the handler of [POST /reminder]. *)
Definition create_reminder (details : ReminderInput.t) (w : World) : result dict * World :=
  match Runner_run (user_input details) w with
  | (Ret final_output, w') =>
      (Ret [("response", final_output); ("status", "Reminders scheduled ✔ ")],
       mk_World (jobs w')
                (print ("response: " ++ final_output ++ ", status: Reminders scheduled ✔ ")
                       (env w')))
  | (Raise x, w') => (Raise x, w')
  end.

End Endpoint.

Section Program.

(** The settings read from the environment at start-up (lines 23-24),
    and the behaviour of the gateway: the outcome of a [requests.post],
    given the calls made before it. *)
Variable ULTRAMSG_URL : string.
Variable TOKEN : string.
Variable requests_post : list Request -> Request -> post_outcome.

Definition headers : list (string * string) :=
  [("content-type", "application/x-www-form-urlencoded")].

(** Line 58. *)
Definition payload (data : WhatsAppRequest) : string :=
  "token=" ++ TOKEN ++ "&to=" ++ phone data ++ "&body=" ++ message data.

(** The call of lines 62-66.  [payload.encode("utf8").decode("iso-8859-1")]
    has one character per UTF-8 byte of [payload], and a [str] body is
    sent encoded as ISO-8859-1: the bytes sent are the UTF-8 bytes of
    [payload], which is how a [str] is carried here. *)
Definition post_request (data : WhatsAppRequest) : Request :=
  mk_Request (ULTRAMSG_URL ++ "messages/chat") (payload data) headers.

(** Lines 56-72.  Everything after line 59 is inside the [try], whose
    [except Exception] turns an exception of the call into a value. *)
Definition send_whatsapp (data : WhatsAppRequest) (e : Env) : result dict * Env :=
  let req := post_request data in
  let e1 := log_request req e in
  match requests_post (http_log e) req with
  | Responds status_code text =>
      if status_code =? 200 then
        (Ret [("status", "✅ WhatsApp message sent!")],
         print ("✅ WhatsApp sent: " ++ message data) e1)
      else
        (Ret [("status", "❌ Failed: " ++ text)], e1)
  | Fails ex =>
      (Ret [("status", "❌ Error: " ++ str_exn ex)], e1)
  end.

(** Line 85. *)
Definition reminder_text (medicine t : string) : string :=
  "💊 Reminder: It's time to take your medicine '" ++ medicine ++ "' at " ++ t.

(** Lines 82-86: the inner function [job], with [phone] and [medicine]
    bound when it is defined and [t] bound by [.do(job, t=t)]. *)
Definition job (phone medicine t : string) : Schedule.callback :=
  fun e =>
    match send_whatsapp (mk_WhatsAppRequest phone (reminder_text medicine t)) e with
    | (Ret _, e') => (Ret tt, e')
    | (Raise x, e') => (Raise x, e')
    end.

(** One turn of the [for] of lines 89-98. *)
Definition add_job (phone medicine t : string) (w : World) : result unit * World :=
  let t24 := t_24 t in
  match Schedule.every_day_at t24 with
  | Raise x => (Raise x, w)
  | Ret tm =>
      (Ret tt,
       mk_World (Schedule.do tm (job phone medicine t) (jobs w))
                (print ("⏰ Reminder scheduled at " ++ t24 ++ " (original: " ++ t ++ ")")
                       (env w)))
  end.

Fixpoint add_jobs (phone medicine : string) (times : list string) (w : World)
  : result unit * World :=
  match times with
  | [] => (Ret tt, w)
  | t :: times' =>
      match add_job phone medicine t w with
      | (Ret _, w') => add_jobs phone medicine times' w'
      | (Raise x, w') => (Raise x, w')
      end
  end.

(** Line 100. *)
Definition confirmation (phone medicine : string) (times : list string) : string :=
  "✅ Reminders for " ++ medicine ++ " scheduled at " ++ Repr.repr_list times
    ++ " for " ++ phone.

(** Lines 77-100, the function that [@function_tool] wraps. *)
Definition schedule_reminder (phone medicine : string) (times : list string) (w : World)
  : result string * World :=
  match add_jobs phone medicine times w with
  | (Ret _, w') => (Ret (confirmation phone medicine times), w')
  | (Raise x, w') => (Raise x, w')
  end.

(** Lines 104-107: [cycles] turns of the [while True], the first poll
    made at instant [now] and each later one after [time.sleep(1)].
    [Ret tt] says the loop is still running after these turns, [Raise x]
    that the exception [x] ended it. *)
Fixpoint run_schedule (should_run : nat -> datetime -> bool) (js : list Schedule.Job)
         (now cycles : nat) (e : Env) : result unit * Env :=
  match cycles with
  | 0 => (Ret tt, e)
  | S cycles' =>
      match Schedule.run_pending should_run now js e with
      | (Ret _, e') => run_schedule should_run js (S now) cycles' e'
      | (Raise x, e') => (Raise x, e')
      end
  end.



(** ** Vocabulary of the statements *)

(** A time of day written on the 12-hour clock: the hour with or without
    a leading zero, two digits of minutes, a space, AM or PM. *)
Definition twelve_hour (padded : bool) (h m : nat) (pm : bool) : string :=
  (if padded then Str.pad2 h else Str.dec h) ++ ":" ++ Str.pad2 m ++ " "
    ++ (if pm then "PM" else "AM").

(** The same time of day on the 24-hour clock, as [HH:MM:SS]. *)
Definition twenty_four_hour (h m : nat) (pm : bool) : string :=
  Str.pad2 (h mod 12 + (if pm then 12 else 0)) ++ ":" ++ Str.pad2 m ++ ":00".

(** Two digits, a colon, two digits, a colon, two digits. *)
Definition is_HH_MM_SS (s : string) : bool :=
  match s with
  | String a (String b (String c1 (String c (String d (String c2 (String e (String f
      EmptyString))))))) =>
      Str.isdigit a && Str.isdigit b && Ascii.eqb c1 ":" && Str.isdigit c
      && Str.isdigit d && Ascii.eqb c2 ":" && Str.isdigit e && Str.isdigit f
  | _ => false
  end.

Definition twelve_hour_table : bool :=
  forallb (fun h => forallb (fun m => forallb (fun pm => forallb (fun padded =>
    String.eqb (t_24 (twelve_hour padded h m pm)) (twenty_four_hour h m pm))
    [false; true]) [false; true]) (seq 0 60)) (seq 1 12).

(** Whether [Job.at] accepts the key computed for the entry [t]. *)
Definition accepted (t : string) : bool :=
  negb (raised (Schedule.every_day_at (t_24 t))).

(** The time of day under which an accepted entry is registered. *)
Definition key (t : string) : datetime :=
  match Schedule.every_day_at (t_24 t) with
  | Ret tm => tm
  | Raise _ => mk_datetime 0 0 0
  end.

(** The entries up to the first one that [Job.at] does not accept. *)
Fixpoint accepted_prefix (times : list string) : list string :=
  match times with
  | [] => []
  | t :: times' => if accepted t then t :: accepted_prefix times' else []
  end.




(** What the sender's returned dict says: success is the check-mark
    status, and the status text is the detail. *)
Definition detail (d : dict) : string :=
  match d with
  | (_, v) :: _ => v
  | [] => EmptyString
  end.

Definition succeeded (d : dict) : bool :=
  String.eqb (detail d) "✅ WhatsApp message sent!".

(** The job that line 97 registers for the entry [t]. *)
Definition trigger (phone medicine t : string) : Schedule.Job :=
  Schedule.mk_Job (key t) (job phone medicine t).


(** A sequence of calls of the tool, each with its own arguments. *)
Fixpoint register_all (calls : list (string * string * list string)) (w : World) : World :=
  match calls with
  | [] => w
  | (phone, medicine, times) :: calls' =>
      register_all calls'
        (snd (schedule_reminder phone medicine times w))
  end.

Definition triggers_of (call : string * string * list string) : list Schedule.Job :=
  let '(phone, medicine, times) := call in map (trigger phone medicine) times.

(** The last two characters of an entry spell am or pm, in any case. *)
Definition am_pm_chars (c d : ascii) : bool :=
  Ascii.eqb (Str.lower d) "m"
  && (Ascii.eqb (Str.lower c) "a" || Ascii.eqb (Str.lower c) "p").

Fixpoint ends_with_am_pm (s : string) : bool :=
  match s with
  | String c s' =>
      match s' with
      | String d EmptyString => am_pm_chars c d
      | _ => ends_with_am_pm s'
      end
  | EmptyString => false
  end.

(** A time of day on the 24-hour clock without seconds, as [HH:MM]. *)
Definition hh_mm (h m : nat) : string := Str.pad2 h ++ ":" ++ Str.pad2 m.

Definition valid_time (d : datetime) : bool :=
  (hour d <=? 23) && (minute d <=? 59) && (second d <=? 59).

(** The line that line 98 prints for the entry [t]. *)
Definition scheduled_line (t : string) : string :=
  "⏰ Reminder scheduled at " ++ t_24 t ++ " (original: " ++ t ++ ")".




(** ** Sample inputs *)

Definition example_url : string := "https://api.ultramsg.com/instance1/".
Definition example_token : string := "tok".

Definition gateway_200 : list Request -> Request -> post_outcome :=
  fun _ _ => Responds 200 "sent".
Definition gateway_500 : list Request -> Request -> post_outcome :=
  fun _ _ => Responds 500 "server error".
Definition gateway_down : list Request -> Request -> post_outcome :=
  fun _ _ => Fails (OtherException "ConnectionError" "connection refused").

Definition env0 : Env := mk_Env [] [].
Definition world0 : World := mk_World [] env0.

(** A job function that raises. *)
Definition failing_job : Schedule.callback :=
  fun e => (Raise (OtherException "RuntimeError" "boom"), e).

Definition always_due : nat -> datetime -> bool := fun _ _ => true.



(** * Properties *)

(** ** Time Normalizer *)

Lemma digit_not_space (c : ascii) : Str.isdigit c = true -> Str.isspace c = false.
Proof.
  unfold Str.isdigit, Str.isspace. intros H.
  apply andb_prop in H as [H1 _]. apply Nat.leb_le in H1.
  apply orb_false_iff; split; apply andb_false_iff; right; apply Nat.leb_gt; lia.
Qed.

Lemma digit_not_colon (c : ascii) : Str.isdigit c = true -> Ascii.eqb c ":" = false.
Proof.
  intros H. destruct (Ascii.eqb_spec c ":") as [->|]; [discriminate H | reflexivity].
Qed.

Lemma strptime_rejects_HH_MM_SS (t : string) :
  is_HH_MM_SS t = true ->
  Str.strip t = t /\ Strptime.format_regex_match t = None.
Proof.
  destruct t as [|a [|b [|c1 [|c [|d [|c2 [|e [|f [|]]]]]]]]]; try discriminate.
  cbn [is_HH_MM_SS]. intros H.
  rewrite !andb_true_iff in H.
  destruct H as [[[[[[[Ha Hb] Hc1] Hc] Hd] Hc2] He] Hf].
  apply Ascii.eqb_eq in Hc1, Hc2. subst c1 c2.
  split.
  - unfold Str.strip. cbn [Str.lstrip]. rewrite (digit_not_space a) by assumption.
    cbn [Str.rstrip]. rewrite (digit_not_space f) by assumption. reflexivity.
  - unfold Strptime.format_regex_match, Strptime.re_I, Strptime.re_lit.
    rewrite (digit_not_colon b) by assumption.
    assert (K : forall hh : nat,
      Strptime.re_M (fun mm => Strptime.re_spaces (Strptime.re_p (fun pm rest =>
        Some (hh, mm, pm, rest)))) (String c (String d (String ":" (String e (String f
          EmptyString))))) = None).
    { intros hh. unfold Strptime.re_M. cbn [Strptime.re_spaces].
      rewrite (digit_not_space d) by assumption.
      change (Str.isspace ":") with false. cbv iota.
      destruct (Str.digit_in 0 5 c && Str.isdigit d), (Str.isdigit c); reflexivity. }
    change (Ascii.eqb ":" ":") with true. cbv iota. rewrite !K.
    destruct (Ascii.eqb a "1" && Str.digit_in 0 2 b),
      (Ascii.eqb a "0" && Str.digit_in 1 9 b), (Str.digit_in 1 9 a); reflexivity.
Qed.

Lemma twelve_hour_table_ok : twelve_hour_table = true.
Proof. vm_compute. reflexivity. Qed.

Lemma twelve_hour_table_lookup (padded : bool) (h m : nat) (pm : bool) :
  twelve_hour_table = true -> 1 <= h <= 12 -> m <= 59 ->
  String.eqb (t_24 (twelve_hour padded h m pm)) (twenty_four_hour h m pm) = true.
Proof.
  unfold twelve_hour_table. intros T Hh Hm.
  rewrite forallb_forall in T. specialize (T h ltac:(apply in_seq; lia)).
  rewrite forallb_forall in T. specialize (T m ltac:(apply in_seq; lia)).
  rewrite forallb_forall in T.
  specialize (T pm ltac:(destruct pm; simpl; auto)).
  rewrite forallb_forall in T.
  exact (T padded ltac:(destruct padded; simpl; auto)).
Qed.

(** C3.  A time written [h:mm AM] or [h:mm PM] (hour 1 to 12, with or
    without a leading zero, minutes 00 to 59) is normalised to the same time
    of day as zero-padded [HH:MM:SS] on the 24-hour clock; so
    ["10:30 PM"] gives ["22:30:00"] and ["9:05 AM"] gives ["09:05:00"]. *)
Theorem normalize_twelve_hour (padded : bool) (h m : nat) (pm : bool) :
  1 <= h <= 12 -> m <= 59 ->
  t_24 (twelve_hour padded h m pm) = twenty_four_hour h m pm
  /\ t_24 "10:30 PM" = "22:30:00" /\ t_24 "9:05 AM" = "09:05:00".
Proof.
  intros Hh Hm. split; [|split; reflexivity].
  apply String.eqb_eq, twelve_hour_table_lookup; [apply twelve_hour_table_ok | exact Hh | exact Hm].
Qed.

Lemma normalize_twelve_hour_witness :
  t_24 (twelve_hour false 12 0 false) = "00:00:00".
Proof.
  apply (normalize_twelve_hour false 12 0 false); lia.
Defined.

(** C4.  When the 12-hour parse of the trimmed entry raises, the entry
    itself is returned, white space included.  A string of the form
    [HH:MM:SS] always fails that parse, so it is a fixed point of the
    normaliser; so are ["14:00:00"], ["not-a-time"] and [" 14:00:00 "]. *)
Theorem normalize_failure_returns_raw (t : string) :
  (raised (Strptime.strptime (Str.strip t)) = true -> t_24 t = t)
  /\ (is_HH_MM_SS t = true ->
      raised (Strptime.strptime (Str.strip t)) = true
      /\ t_24 t = t /\ t_24 (t_24 t) = t_24 t)
  /\ t_24 "14:00:00" = "14:00:00" /\ t_24 "not-a-time" = "not-a-time"
  /\ t_24 " 14:00:00 " = " 14:00:00 ".
Proof.
  assert (F : raised (Strptime.strptime (Str.strip t)) = true -> t_24 t = t).
  { unfold t_24. destruct (Strptime.strptime (Str.strip t)); [discriminate | reflexivity]. }
  split; [exact F|]. split; [|repeat split; reflexivity].
  intros H. destruct (strptime_rejects_HH_MM_SS t H) as [Hs Hm].
  assert (R : raised (Strptime.strptime (Str.strip t)) = true).
  { rewrite Hs. unfold Strptime.strptime. rewrite Hm. reflexivity. }
  split; [exact R|]. rewrite (F R). split; [reflexivity | exact (F R)].
Qed.

Lemma normalize_failure_returns_raw_witness :
  raised (Strptime.strptime (Str.strip "23:59:59")) = true
  /\ t_24 "23:59:59" = "23:59:59" /\ t_24 (t_24 "23:59:59") = t_24 "23:59:59".
Proof.
  apply (normalize_failure_returns_raw "23:59:59"). reflexivity.
Defined.

(** ** Notification Sender, registration and dispatch *)

(** *** The sender *)

Lemma send_whatsapp_returns (data : WhatsAppRequest) (e : Env) :
  exists d, send_whatsapp data e = (Ret d, snd (send_whatsapp data e))
            /\ http_log (snd (send_whatsapp data e)) = (http_log e ++ [post_request data])%list.
Proof.
  unfold send_whatsapp.
  destruct (requests_post (http_log e) (post_request data)) as [c text|ex].
  - destruct (c =? 200); eexists; split; reflexivity.
  - eexists; split; reflexivity.
Qed.

(** C5.  The sender never raises.  On status 200 it returns the success
    status; on any other status the failure status carrying the response
    text; when the call itself raises, the failure status carrying the
    exception's message. *)
Theorem send_whatsapp_outcome (data : WhatsAppRequest) (e : Env) :
  raised (fst (send_whatsapp data e)) = false
  /\ (forall text,
        requests_post (http_log e) (post_request data) = Responds 200 text ->
        exists d, fst (send_whatsapp data e) = Ret d /\ succeeded d = true)
  /\ (forall c text,
        requests_post (http_log e) (post_request data) = Responds c text ->
        c <> 200 ->
        exists d, fst (send_whatsapp data e) = Ret d /\ succeeded d = false
                  /\ detail d = "❌ Failed: " ++ text)
  /\ (forall ex,
        requests_post (http_log e) (post_request data) = Fails ex ->
        exists d, fst (send_whatsapp data e) = Ret d /\ succeeded d = false
                  /\ detail d = "❌ Error: " ++ str_exn ex).
Proof.
  unfold send_whatsapp.
  destruct (requests_post (http_log e) (post_request data)) as [c text|ex].
  - destruct (Nat.eqb_spec c 200) as [->|Hc]; cbn [fst raised].
    + split; [reflexivity|]. split; [|split].
      * intros text' _. eexists; split; reflexivity.
      * intros c' text' H Hc'. inversion H; subst. contradiction.
      * intros ex; discriminate.
    + split; [reflexivity|]. split; [|split].
      * intros text' H. inversion H; subst. contradiction.
      * intros c' text' H _. inversion H; subst.
        eexists; split; [reflexivity|]. split; reflexivity.
      * intros ex; discriminate.
  - cbn [fst raised]. split; [reflexivity|]. split; [|split].
    + intros text; discriminate.
    + intros c text; discriminate.
    + intros ex' H. inversion H; subst.
      eexists; split; [reflexivity|]. split; reflexivity.
Qed.

(** *** Substrings *)

Lemma append_assoc (a b c : string) : (a ++ b) ++ c = a ++ b ++ c.
Proof. induction a as [|x a IH]; simpl; [reflexivity | now rewrite IH]. Qed.

Lemma append_nil_r (a : string) : a ++ EmptyString = a.
Proof. induction a as [|x a IH]; simpl; [reflexivity | now rewrite IH]. Qed.

Lemma prefix_append (x r : string) : prefix x (x ++ r) = true.
Proof.
  induction x as [|c x IH]; simpl; [now destruct r|].
  destruct (ascii_dec c c); [exact IH | contradiction].
Qed.

Lemma contains_middle (x a b : string) : Str.contains x (a ++ x ++ b) = true.
Proof.
  induction a as [|c a IH]; simpl.
  - assert (U : forall s, Str.contains x s = true <-> prefix x s = true \/
              match s with String _ s' => Str.contains x s' = true | _ => False end).
    { intros [|c s]; simpl; rewrite orb_true_iff; intuition discriminate. }
    apply U. left. apply prefix_append.
  - rewrite IH. apply orb_true_r.
Qed.

Lemma contains_end (x a : string) : Str.contains x (a ++ x) = true.
Proof. rewrite <- (append_nil_r x) at 2. apply contains_middle. Qed.

(** *** The callback *)

Lemma job_runs (phone medicine t : string) (e : Env) :
  job phone medicine t e =
    (Ret tt, snd (send_whatsapp (mk_WhatsAppRequest phone (reminder_text medicine t)) e)).
Proof.
  unfold job.
  destruct (send_whatsapp_returns (mk_WhatsAppRequest phone (reminder_text medicine t)) e)
    as (d & -> & _).
  reflexivity.
Qed.

(** C7.  Running the job registered for an entry [t] calls the sender
    once: one request goes out, addressed to the job's phone, and its
    message names the medicine and ends with the entry as it was given,
    whatever key the entry was registered under.  A poll runs the job
    exactly when the job is due. *)
Theorem job_sends_one_reminder (phone medicine t : string) (e : Env) :
  fst (job phone medicine t e) = Ret tt
  /\ http_log (snd (job phone medicine t e)) =
       (http_log e
          ++ [post_request (mk_WhatsAppRequest phone (reminder_text medicine t))])%list
  /\ req_data (post_request (mk_WhatsAppRequest phone (reminder_text medicine t))) =
       "token=" ++ TOKEN ++ "&to=" ++ phone ++ "&body=" ++ reminder_text medicine t
  /\ reminder_text medicine t =
       "💊 Reminder: It's time to take your medicine '" ++ medicine ++ "' at " ++ t
  /\ Str.contains medicine (reminder_text medicine t) = true
  /\ Str.contains t (reminder_text medicine t) = true
  /\ Schedule.job_func (trigger phone medicine t) = job phone medicine t
  /\ (forall should_run now,
        Schedule.run_pending should_run now [trigger phone medicine t] e =
          if should_run now (key t) then job phone medicine t e else (Ret tt, e))
  /\ Str.contains (t_24 "9:05 AM") (reminder_text "Aspirin" "9:05 AM") = false.
Proof.
  rewrite job_runs. cbn [fst snd].
  destruct (send_whatsapp_returns (mk_WhatsAppRequest phone (reminder_text medicine t)) e)
    as (d & _ & L).
  split; [reflexivity|]. split; [exact L|]. split; [reflexivity|].
  split; [reflexivity|]. split; [apply contains_middle|].
  split.
  { unfold reminder_text.
    rewrite <- (append_assoc _ medicine), <- (append_assoc _ "' at ").
    apply contains_end. }
  split; [reflexivity|]. split; [|vm_compute; reflexivity].
  intros should_run now. unfold Schedule.run_pending, Schedule.runnable_jobs.
  unfold trigger. cbn [filter Schedule.at_time].
  destruct (should_run now (key t)); cbn [Schedule.run_all Schedule.job_func].
  - rewrite job_runs. reflexivity.
  - reflexivity.
Qed.

(** *** Registration *)

Lemma add_jobs_raised (phone medicine : string) (times : list string) (w : World) :
  raised (fst (add_jobs phone medicine times w)) = negb (forallb accepted times).
Proof.
  revert w. induction times as [|t times IH]; intros w; [reflexivity|].
  cbn [add_jobs forallb]. unfold add_job, accepted at 1.
  destruct (Schedule.every_day_at (t_24 t)) as [tm|x]; cbn [raised negb andb].
  - apply IH.
  - reflexivity.
Qed.

Lemma add_jobs_jobs (phone medicine : string) (times : list string) (w : World) :
  jobs (snd (add_jobs phone medicine times w)) =
    (jobs w ++ map (trigger phone medicine) (accepted_prefix times))%list.
Proof.
  revert w. induction times as [|t times IH]; intros w.
  - cbn. now rewrite app_nil_r.
  - cbn [add_jobs accepted_prefix]. unfold add_job, accepted.
    destruct (Schedule.every_day_at (t_24 t)) as [tm|x] eqn:E; cbn [raised negb].
    + assert (T : trigger phone medicine t = Schedule.mk_Job tm (job phone medicine t))
        by (unfold trigger, key; now rewrite E).
      rewrite IH. cbn [jobs map]. rewrite T. unfold Schedule.do.
      now rewrite <- app_assoc.
    + cbn. now rewrite app_nil_r.
Qed.

Lemma schedule_reminder_fst (phone medicine : string) (times : list string) (w : World) :
  fst (schedule_reminder phone medicine times w) =
    match fst (add_jobs phone medicine times w) with
    | Ret _ => Ret (confirmation phone medicine times)
    | Raise x => Raise x
    end.
Proof.
  unfold schedule_reminder.
  now destruct (add_jobs phone medicine times w) as [[u|x] w'].
Qed.

Lemma schedule_reminder_snd (phone medicine : string) (times : list string) (w : World) :
  snd (schedule_reminder phone medicine times w) = snd (add_jobs phone medicine times w).
Proof.
  unfold schedule_reminder.
  now destruct (add_jobs phone medicine times w) as [[u|x] w'].
Qed.

Lemma accepted_prefix_all (times : list string) :
  forallb accepted times = true -> accepted_prefix times = times.
Proof.
  induction times as [|t times IH]; [reflexivity|].
  cbn [forallb accepted_prefix]. intros H. apply andb_prop in H as [Ht Hs].
  now rewrite Ht, IH.
Qed.


Lemma register_all_jobs (calls : list (string * string * list string)) (w : World) :
  jobs (register_all calls w) =
    (jobs w ++ flat_map (fun c => triggers_of (fst (fst c), snd (fst c), accepted_prefix (snd c)))
                        calls)%list.
Proof.
  revert w. induction calls as [|[[phone medicine] times] calls IH]; intros w.
  - cbn. now rewrite app_nil_r.
  - cbn [register_all flat_map]. rewrite IH, schedule_reminder_snd, add_jobs_jobs.
    cbn [fst snd triggers_of]. now rewrite <- app_assoc.
Qed.

(** C1.  The call raises exactly when some entry's key is not accepted by
    the scheduler's [at]; the jobs added are those of the entries before
    the first such entry.  A failed 12-hour parse raises nothing by
    itself, but its raw string is then the key: ["not-a-time"] and
    ["25:00:00"] are keys the scheduler refuses. *)
Theorem schedule_reminder_raises_iff_key_refused
        (phone medicine : string) (times : list string) (w : World) :
  raised (fst (schedule_reminder phone medicine times w)) = negb (forallb accepted times)
  /\ jobs (snd (schedule_reminder phone medicine times w)) =
       (jobs w ++ map (trigger phone medicine) (accepted_prefix times))%list
  /\ accepted "14:00:00" = true /\ accepted "9:05 AM" = true
  /\ t_24 "not-a-time" = "not-a-time" /\ accepted "not-a-time" = false
  /\ t_24 "25:00:00" = "25:00:00" /\ accepted "25:00:00" = false.
Proof.
  split.
  { rewrite schedule_reminder_fst, <- (add_jobs_raised phone medicine times w).
    now destruct (fst (add_jobs phone medicine times w)). }
  split; [now rewrite schedule_reminder_snd, add_jobs_jobs|].
  repeat split; reflexivity.
Qed.

Lemma run_schedule_nil (should_run : nat -> datetime -> bool) (now cycles : nat) (e : Env) :
  run_schedule should_run [] now cycles e = (Ret tt, e).
Proof.
  revert now. induction cycles as [|cycles IH]; intros now; [reflexivity|].
  cbn. apply IH.
Qed.

(** C8.  With an empty list of times the call returns its confirmation
    and changes nothing: no job is added, so the loop behaves as before
    the call, and over a registry that was empty it runs nothing. *)
Theorem schedule_reminder_no_times (phone medicine : string) (w : World) :
  schedule_reminder phone medicine [] w = (Ret (confirmation phone medicine []), w)
  /\ confirmation phone medicine [] =
       "✅ Reminders for " ++ medicine ++ " scheduled at [] for " ++ phone
  /\ (forall should_run now cycles e,
        run_schedule should_run (jobs (snd (schedule_reminder phone medicine [] w)))
                     now cycles e
        = run_schedule should_run (jobs w) now cycles e)
  /\ (forall should_run now cycles e,
        run_schedule should_run
          (jobs (snd (schedule_reminder phone medicine [] (mk_World [] (env w)))))
          now cycles e
        = (Ret tt, e)).
Proof.
  split; [reflexivity|]. split; [reflexivity|]. split; [reflexivity|].
  intros. apply run_schedule_nil.
Qed.

(** *** The confirmation text *)

Definition occurs (x s : string) : Prop := exists a b, s = a ++ x ++ b.

Lemma occurs_contains (x s : string) : occurs x s -> Str.contains x s = true.
Proof. intros (a & b & ->). apply contains_middle. Qed.

Lemma occurs_refl (x : string) : occurs x x.
Proof. exists EmptyString, EmptyString. cbn. now rewrite append_nil_r. Qed.

Lemma occurs_left (a x s : string) : occurs x s -> occurs x (a ++ s).
Proof.
  intros (u & v & ->). exists (a ++ u), v. now rewrite append_assoc.
Qed.

Lemma occurs_right (b x s : string) : occurs x s -> occurs x (s ++ b).
Proof.
  intros (u & v & ->). exists u, (v ++ b). now rewrite !append_assoc.
Qed.








(** *** Firing *)

Definition is_reminder (j : Schedule.Job) : Prop :=
  exists phone medicine t, Schedule.job_func j = job phone medicine t.

Lemma job_log (phone medicine t : string) (e : Env) :
  http_log (snd (job phone medicine t e)) =
    (http_log e ++ [post_request (mk_WhatsAppRequest phone (reminder_text medicine t))])%list.
Proof.
  rewrite job_runs. cbn [snd].
  now destruct (send_whatsapp_returns
                  (mk_WhatsAppRequest phone (reminder_text medicine t)) e) as (d & _ & L).
Qed.

Lemma run_all_reminders (js : list Schedule.Job) (e : Env) :
  Forall is_reminder js ->
  fst (Schedule.run_all js e) = Ret tt
  /\ length (http_log (snd (Schedule.run_all js e))) = length (http_log e) + length js.
Proof.
  intros F. revert e. induction F as [|j js (phone & medicine & t & Hj) F IH]; intros e.
  - cbn. split; [reflexivity | lia].
  - cbn [Schedule.run_all]. rewrite Hj, job_runs.
    destruct (IH (snd (send_whatsapp
                         (mk_WhatsAppRequest phone (reminder_text medicine t)) e)))
      as [R L].
    split; [exact R|]. rewrite L.
    destruct (send_whatsapp_returns
                (mk_WhatsAppRequest phone (reminder_text medicine t)) e) as (d & _ & ->).
    rewrite length_app. cbn [length]. lia.
Qed.


Lemma runnable_reminders (should_run : nat -> datetime -> bool) (now : nat)
      (js : list Schedule.Job) :
  Forall is_reminder js -> Forall is_reminder (Schedule.runnable_jobs should_run now js).
Proof.
  rewrite !Forall_forall. intros F j Hj. apply filter_In in Hj as [Hj _]. now apply F.
Qed.


Lemma triggers_of_accepted (c : string * string * list string) :
  forallb accepted (snd c) = true ->
  triggers_of (fst (fst c), snd (fst c), accepted_prefix (snd c)) = triggers_of c.
Proof.
  destruct c as [[phone medicine] times]. cbn [fst snd]. intros H.
  now rewrite accepted_prefix_all.
Qed.

(** C9.  For an entry whose key the scheduler accepts, two calls with the
    same arguments add two jobs, and a poll at which that time of day is
    due runs both: two identical requests go out.  After any sequence of
    calls whose entries are all accepted, the registry has grown by one
    job per call and entry, in order. *)
Theorem registration_is_additive (phone medicine t : string) (w : World) :
  accepted t = true ->
  jobs (register_all [(phone, medicine, [t]); (phone, medicine, [t])] w) =
    (jobs w ++ [trigger phone medicine t; trigger phone medicine t])%list
  /\ (forall should_run now e,
        should_run now (key t) = true ->
        fst (Schedule.run_pending should_run now
               [trigger phone medicine t; trigger phone medicine t] e) = Ret tt
        /\ http_log (snd (Schedule.run_pending should_run now
                            [trigger phone medicine t; trigger phone medicine t] e)) =
             (http_log e
                ++ [post_request (mk_WhatsAppRequest phone (reminder_text medicine t));
                    post_request (mk_WhatsAppRequest phone (reminder_text medicine t))])%list)
  /\ (forall calls w0,
        forallb (fun c => forallb accepted (snd c)) calls = true ->
        jobs (register_all calls w0) = (jobs w0 ++ flat_map triggers_of calls)%list
        /\ length (jobs (register_all calls w0)) =
             length (jobs w0) + list_sum (map (fun c => length (snd c)) calls)).
Proof.
  intros Ht.
  assert (G : forall calls w0,
             forallb (fun c => forallb accepted (snd c)) calls = true ->
             jobs (register_all calls w0) = (jobs w0 ++ flat_map triggers_of calls)%list).
  { intros calls w0 H. rewrite register_all_jobs. f_equal.
    induction calls as [|c calls IH]; [reflexivity|].
    cbn [forallb flat_map] in *. apply andb_prop in H as [Hc Hs].
    now rewrite (triggers_of_accepted c Hc), (IH Hs). }
  split; [|split].
  - rewrite G; [reflexivity|]. cbn. now rewrite Ht.
  - intros should_run now e Hdue.
    unfold Schedule.run_pending, Schedule.runnable_jobs, trigger.
    cbn [filter Schedule.at_time]. rewrite Hdue.
    cbn [Schedule.run_all Schedule.job_func]. rewrite !job_runs. cbn [fst snd].
    split; [reflexivity|].
    destruct (send_whatsapp_returns
                (mk_WhatsAppRequest phone (reminder_text medicine t))
                (snd (send_whatsapp
                        (mk_WhatsAppRequest phone (reminder_text medicine t)) e)))
      as (d & _ & ->).
    destruct (send_whatsapp_returns
                (mk_WhatsAppRequest phone (reminder_text medicine t)) e) as (d' & _ & ->).
    now rewrite <- app_assoc.
  - intros calls w0 H. split; [now apply G|]. rewrite (G calls w0 H), length_app.
    f_equal. clear H. induction calls as [|[[p m] ts] calls IH]; [reflexivity|].
    cbn [flat_map map list_sum fold_right triggers_of snd].
    rewrite length_app, length_map. unfold list_sum in IH. now rewrite IH.
Qed.

(** *** The request body *)







(** ** Further properties of the time normalizer *)

Lemma orelse_some {A : Type} (p q : option A) (x : A) :
  Strptime.orelse p q = Some x -> p = Some x \/ q = Some x.
Proof. destruct p; cbn; auto. Qed.

Definition suffix_of (r s : string) : Prop := exists pre, s = pre ++ r.

Lemma suffix_refl (s : string) : suffix_of s s.
Proof. now exists EmptyString. Qed.

Lemma suffix_cons (c : ascii) (r s : string) : suffix_of r s -> suffix_of r (String c s).
Proof. intros (pre & ->). now exists (String c pre). Qed.

Lemma suffix_trans (a b c : string) : suffix_of a b -> suffix_of b c -> suffix_of a c.
Proof. intros (p & ->) (q & ->). exists (q ++ p). now rewrite append_assoc. Qed.

Lemma digit_in_bounds (lo hi : nat) (c : ascii) :
  Str.digit_in lo hi c = true -> lo <= Str.digit_val c <= hi.
Proof. unfold Str.digit_in. rewrite !andb_true_iff, !Nat.leb_le. tauto. Qed.

Lemma isdigit_bound (c : ascii) : Str.isdigit c = true -> Str.digit_val c <= 9.
Proof.
  unfold Str.isdigit, Str.digit_val. rewrite andb_true_iff, !Nat.leb_le. lia.
Qed.

Lemma re_I_inv {A : Type} (k : nat -> string -> option A) (s : string) (x : A) :
  Strptime.re_I k s = Some x ->
  exists n r, 1 <= n <= 12 /\ suffix_of r s /\ k n r = Some x.
Proof.
  unfold Strptime.re_I. intros H.
  apply orelse_some in H as [H|H]; [|apply orelse_some in H as [H|H]].
  - destruct s as [|c [|d r]]; try discriminate.
    destruct (Ascii.eqb c "1" && Str.digit_in 0 2 d) eqn:E; [|discriminate].
    apply andb_prop in E as [_ E]. apply digit_in_bounds in E.
    exists (10 + Str.digit_val d), r. split; [lia|].
    split; [do 2 apply suffix_cons; apply suffix_refl | exact H].
  - destruct s as [|c [|d r]]; try discriminate.
    destruct (Ascii.eqb c "0" && Str.digit_in 1 9 d) eqn:E; [|discriminate].
    apply andb_prop in E as [_ E]. apply digit_in_bounds in E.
    exists (Str.digit_val d), r. split; [lia|].
    split; [do 2 apply suffix_cons; apply suffix_refl | exact H].
  - destruct s as [|c r]; try discriminate.
    destruct (Str.digit_in 1 9 c) eqn:E; [|discriminate].
    apply digit_in_bounds in E.
    exists (Str.digit_val c), r. split; [lia|].
    split; [apply suffix_cons, suffix_refl | exact H].
Qed.

Lemma re_M_inv {A : Type} (k : nat -> string -> option A) (s : string) (x : A) :
  Strptime.re_M k s = Some x ->
  exists n r, n <= 59 /\ suffix_of r s /\ k n r = Some x.
Proof.
  unfold Strptime.re_M. intros H. apply orelse_some in H as [H|H].
  - destruct s as [|c [|d r]]; try discriminate.
    destruct (Str.digit_in 0 5 c && Str.isdigit d) eqn:E; [|discriminate].
    apply andb_prop in E as [Ec Ed]. apply digit_in_bounds in Ec.
    apply isdigit_bound in Ed.
    exists (10 * Str.digit_val c + Str.digit_val d), r. split; [lia|].
    split; [do 2 apply suffix_cons; apply suffix_refl | exact H].
  - destruct s as [|c r]; try discriminate.
    destruct (Str.isdigit c) eqn:E; [|discriminate].
    apply isdigit_bound in E.
    exists (Str.digit_val c), r. split; [lia|].
    split; [apply suffix_cons, suffix_refl | exact H].
Qed.

Lemma re_lit_inv {A : Type} (a : ascii) (k : string -> option A) (s : string) (x : A) :
  Strptime.re_lit a k s = Some x -> exists r, suffix_of r s /\ k r = Some x.
Proof.
  unfold Strptime.re_lit. destruct s as [|c r]; [discriminate|].
  destruct (Ascii.eqb c a); [|discriminate]. intros H.
  exists r. split; [apply suffix_cons, suffix_refl | exact H].
Qed.

Lemma re_spaces_inv {A : Type} (k : string -> option A) (s : string) (x : A) :
  Strptime.re_spaces k s = Some x -> exists r, suffix_of r s /\ k r = Some x.
Proof.
  induction s as [|c s IH]; cbn [Strptime.re_spaces]; [discriminate|].
  destruct (Str.isspace c); [|discriminate]. intros H.
  apply orelse_some in H as [H|H].
  - destruct (IH H) as (r & S & K). exists r. split; [now apply suffix_cons | exact K].
  - exists s. split; [apply suffix_cons, suffix_refl | exact H].
Qed.

Lemma re_p_inv {A : Type} (k : bool -> string -> option A) (s : string) (x : A) :
  Strptime.re_p k s = Some x ->
  exists c d r pm, s = String c (String d r) /\ am_pm_chars c d = true /\ k pm r = Some x.
Proof.
  unfold Strptime.re_p. destruct s as [|c [|d r]]; try discriminate.
  destruct (Ascii.eqb (Str.lower d) "m") eqn:Em; [|discriminate].
  destruct (Ascii.eqb (Str.lower c) "a") eqn:Ea.
  - intros H. exists c, d, r, false. unfold am_pm_chars. now rewrite Em, Ea.
  - destruct (Ascii.eqb (Str.lower c) "p") eqn:Ep; [|discriminate].
    intros H. exists c, d, r, true. unfold am_pm_chars. now rewrite Em, Ea, Ep.
Qed.

Lemma format_regex_match_inv (s rest : string) (hh mm : nat) (pm : bool) :
  Strptime.format_regex_match s = Some (hh, mm, pm, rest) ->
  1 <= hh <= 12 /\ mm <= 59
  /\ exists c d, am_pm_chars c d = true /\ suffix_of (String c (String d rest)) s.
Proof.
  unfold Strptime.format_regex_match. intros H.
  apply re_I_inv in H as (n & r1 & Hn & S1 & H).
  apply re_lit_inv in H as (r2 & S2 & H).
  apply re_M_inv in H as (m & r3 & Hm & S3 & H).
  apply re_spaces_inv in H as (r4 & S4 & H).
  apply re_p_inv in H as (c & d & r5 & pm' & -> & Hc & H).
  inversion H; subst. split; [exact Hn|]. split; [exact Hm|].
  exists c, d. split; [exact Hc|].
  eapply suffix_trans; [exact S4|]. eapply suffix_trans; [exact S3|].
  eapply suffix_trans; [exact S2 | exact S1].
Qed.

Lemma ends_with_am_pm_append (pre : string) (c d : ascii) :
  ends_with_am_pm (pre ++ String c (String d EmptyString)) = am_pm_chars c d.
Proof.
  induction pre as [|x pre IH]; [reflexivity|].
  cbn [append]. rewrite <- IH. now destruct pre as [|y [|z pre]].
Qed.

Lemma strptime_inv (s : string) (d : datetime) :
  Strptime.strptime s = Ret d ->
  hour d <= 23 /\ minute d <= 59 /\ second d = 0 /\ ends_with_am_pm s = true.
Proof.
  unfold Strptime.strptime.
  destruct (Strptime.format_regex_match s) as [[[[hh mm] pm] rest]|] eqn:E; [|discriminate].
  destruct rest; [|discriminate]. intros H. inversion H; subst; cbn [hour minute second].
  apply format_regex_match_inv in E as (Hh & Hm & c & d & Hc & pre & ->).
  split; [destruct pm, (Nat.eqb_spec hh 12); lia|]. split; [exact Hm|].
  split; [reflexivity|]. now rewrite ends_with_am_pm_append.
Qed.

Lemma code_digit_char (k : nat) : k <= 9 -> Str.code (Str.digit_char k) = 48 + k.
Proof.
  intros H. unfold Str.code, Str.digit_char. apply nat_ascii_embedding. lia.
Qed.

Lemma isdigit_digit_char (k : nat) : k <= 9 -> Str.isdigit (Str.digit_char k) = true.
Proof.
  intros H. unfold Str.isdigit. rewrite (code_digit_char k H).
  apply andb_true_iff; split; apply Nat.leb_le; lia.
Qed.

Lemma digit_val_digit_char (k : nat) : k <= 9 -> Str.digit_val (Str.digit_char k) = k.
Proof. intros H. unfold Str.digit_val. rewrite (code_digit_char k H). lia. Qed.

Lemma digit_in_digit_char (lo hi k : nat) :
  k <= 9 -> lo <= k <= hi -> Str.digit_in lo hi (Str.digit_char k) = true.
Proof.
  intros H B. unfold Str.digit_in.
  rewrite (isdigit_digit_char k H), (digit_val_digit_char k H).
  apply andb_true_iff; split; [apply andb_true_iff; split|]; try reflexivity;
    apply Nat.leb_le; lia.
Qed.

Lemma tens_units (n : nat) :
  n <= 99 -> n / 10 <= 9 /\ n mod 10 <= 9 /\ 10 * (n / 10) + n mod 10 = n.
Proof.
  intros H. pose proof (Nat.div_mod_eq n 10). pose proof (Nat.mod_upper_bound n 10).
  assert (n / 10 < 10) by (apply Nat.Div0.div_lt_upper_bound; lia). lia.
Qed.

Lemma two_pad2 (n : nat) :
  n <= 99 ->
  Schedule.two (Str.digit_char (n / 10)) (Str.digit_char (n mod 10)) = n.
Proof.
  intros H. destruct (tens_units n H) as (T & U & E). unfold Schedule.two.
  now rewrite (digit_val_digit_char _ T), (digit_val_digit_char _ U).
Qed.

Lemma every_day_at_strftime (d : datetime) :
  valid_time d = true -> Schedule.every_day_at (Strptime.strftime d) = Ret d.
Proof.
  destruct d as [h m s]. unfold valid_time. cbn [hour minute second].
  rewrite !andb_true_iff, !Nat.leb_le. intros [[Hh Hm] Hs].
  destruct (tens_units h) as (Th & Uh & _); [lia|].
  destruct (tens_units m) as (Tm & Um & _); [lia|].
  destruct (tens_units s) as (Ts & Us & _); [lia|].
  assert (h / 10 < 3) by (apply Nat.Div0.div_lt_upper_bound; lia).
  assert (m / 10 < 6) by (apply Nat.Div0.div_lt_upper_bound; lia).
  assert (s / 10 < 6) by (apply Nat.Div0.div_lt_upper_bound; lia).
  unfold Schedule.every_day_at, Strptime.strftime, Str.pad2.
  cbn [append hour minute second]. unfold Schedule.at_regex.
  rewrite (digit_in_digit_char 0 2 (h / 10)), (isdigit_digit_char (h mod 10)),
    (digit_in_digit_char 0 5 (m / 10)), (isdigit_digit_char (m mod 10)),
    (digit_in_digit_char 0 5 (s / 10)), (isdigit_digit_char (s mod 10)) by lia.
  change (Ascii.eqb ":" ":") with true. cbn [andb Schedule.at_end].
  rewrite !two_pad2 by lia.
  assert (E : (h <=? 23) = true) by (apply Nat.leb_le; lia). now rewrite E.
Qed.

Lemma every_day_at_hh_mm (h m : nat) :
  h <= 23 -> m <= 59 -> Schedule.every_day_at (hh_mm h m) = Ret (mk_datetime h m 0).
Proof.
  intros Hh Hm.
  destruct (tens_units h) as (Th & Uh & _); [lia|].
  destruct (tens_units m) as (Tm & Um & _); [lia|].
  assert (h / 10 < 3) by (apply Nat.Div0.div_lt_upper_bound; lia).
  assert (m / 10 < 6) by (apply Nat.Div0.div_lt_upper_bound; lia).
  unfold Schedule.every_day_at, hh_mm, Str.pad2. cbn [append]. unfold Schedule.at_regex.
  rewrite (digit_in_digit_char 0 2 (h / 10)), (isdigit_digit_char (h mod 10)),
    (digit_in_digit_char 0 5 (m / 10)), (isdigit_digit_char (m mod 10)) by lia.
  change (Ascii.eqb ":" ":") with true. cbn [andb Schedule.at_end].
  rewrite !two_pad2 by lia.
  assert (E : (h <=? 23) = true) by (apply Nat.leb_le; lia). now rewrite E.
Qed.

Lemma is_HH_MM_SS_strftime (d : datetime) :
  valid_time d = true -> is_HH_MM_SS (Strptime.strftime d) = true.
Proof.
  destruct d as [h m s]. unfold valid_time. cbn [hour minute second].
  rewrite !andb_true_iff, !Nat.leb_le. intros [[Hh Hm] Hs].
  destruct (tens_units h) as (Th & Uh & _); [lia|].
  destruct (tens_units m) as (Tm & Um & _); [lia|].
  destruct (tens_units s) as (Ts & Us & _); [lia|].
  unfold Strptime.strftime, Str.pad2. cbn [append hour minute second is_HH_MM_SS].
  now rewrite !isdigit_digit_char by assumption.
Qed.

Lemma t_24_of_HH_MM_SS (t : string) : is_HH_MM_SS t = true -> t_24 t = t.
Proof.
  intros H. destruct (strptime_rejects_HH_MM_SS t H) as [Hs Hm].
  unfold t_24, Strptime.strptime. now rewrite Hs, Hm.
Qed.

Lemma strptime_valid (s : string) (d : datetime) :
  Strptime.strptime s = Ret d -> valid_time d = true.
Proof.
  intros H. apply strptime_inv in H as (Hh & Hm & Hs & _). unfold valid_time.
  rewrite !andb_true_iff, !Nat.leb_le. lia.
Qed.

Lemma no_am_pm_raises (s : string) :
  ends_with_am_pm s = false -> raised (Strptime.strptime s) = true.
Proof.
  intros H. destruct (Strptime.strptime s) as [d|x] eqn:E; [|reflexivity].
  apply strptime_inv in E as (_ & _ & _ & E). congruence.
Qed.

(** X1.  An entry that parses on the 12-hour clock is always accepted by
    the scheduler, and the job is set for exactly the time of day parsed:
    the format written by [strftime] is one that [at] reads back. *)
Theorem parsed_entry_is_accepted (t : string) (d : datetime) :
  Strptime.strptime (Str.strip t) = Ret d ->
  t_24 t = Strptime.strftime d
  /\ Schedule.every_day_at (t_24 t) = Ret d
  /\ accepted t = true /\ key t = d.
Proof.
  intros H. pose proof (strptime_valid _ _ H) as V.
  assert (T : t_24 t = Strptime.strftime d) by (unfold t_24; now rewrite H).
  assert (E : Schedule.every_day_at (t_24 t) = Ret d)
    by (rewrite T; now apply every_day_at_strftime).
  split; [exact T|]. split; [exact E|]. unfold accepted, key. now rewrite E.
Qed.

(** X2.  Normalising twice is the same as normalising once, for every
    entry. *)
Theorem t_24_idempotent (t : string) : t_24 (t_24 t) = t_24 t.
Proof.
  destruct (Strptime.strptime (Str.strip t)) as [d|x] eqn:E.
  - assert (T : t_24 t = Strptime.strftime d) by (unfold t_24; now rewrite E).
    rewrite T. apply t_24_of_HH_MM_SS, is_HH_MM_SS_strftime.
    exact (strptime_valid _ _ E).
  - assert (T : t_24 t = t) by (unfold t_24; now rewrite E).
    now rewrite !T.
Qed.

(** X3.  An entry is rewritten only if, once trimmed, it ends with am or
    pm: any other entry goes to the scheduler exactly as given; and an
    entry that is rewritten becomes a valid [HH:MM:SS]. *)
Theorem entry_without_am_pm_unchanged (t : string) :
  (ends_with_am_pm (Str.strip t) = false -> t_24 t = t)
  /\ (t_24 t <> t ->
      ends_with_am_pm (Str.strip t) = true /\ is_HH_MM_SS (t_24 t) = true
      /\ accepted t = true).
Proof.
  split.
  - intros H. apply no_am_pm_raises in H. unfold t_24.
    now destruct (Strptime.strptime (Str.strip t)).
  - intros N. destruct (Strptime.strptime (Str.strip t)) as [d|x] eqn:E.
    + pose proof (strptime_valid _ _ E) as V.
      assert (T : t_24 t = Strptime.strftime d) by (unfold t_24; now rewrite E).
      split; [now apply strptime_inv in E|]. split.
      * rewrite T. now apply is_HH_MM_SS_strftime.
      * unfold accepted. rewrite T, (every_day_at_strftime d V). reflexivity.
    + exfalso. apply N. unfold t_24. now rewrite E.
Qed.

Lemma am_pm_chars_digit (c d : ascii) : Str.isdigit d = true -> am_pm_chars c d = false.
Proof.
  intros H. unfold am_pm_chars.
  assert (L : Str.lower d = d).
  { unfold Str.lower. unfold Str.isdigit in H. apply andb_prop in H as [_ H].
    apply Nat.leb_le in H.
    replace (65 <=? Str.code d) with false by (symmetry; apply Nat.leb_gt; lia).
    reflexivity. }
  rewrite L. destruct (Ascii.eqb_spec d "m") as [->|]; [discriminate H | reflexivity].
Qed.

(** X4.  A 24-hour entry, [HH:MM:SS] or [HH:MM] with hour up to 23 and
    minutes and seconds up to 59, is left as it is by the normaliser and is
    registered at exactly the time of day it names. *)
Theorem twenty_four_hour_entry_keeps_its_time (d : datetime) :
  valid_time d = true ->
  t_24 (Strptime.strftime d) = Strptime.strftime d
  /\ accepted (Strptime.strftime d) = true
  /\ key (Strptime.strftime d) = d
  /\ t_24 (hh_mm (hour d) (minute d)) = hh_mm (hour d) (minute d)
  /\ accepted (hh_mm (hour d) (minute d)) = true
  /\ key (hh_mm (hour d) (minute d)) = mk_datetime (hour d) (minute d) 0.
Proof.
  intros V.
  assert (T : t_24 (Strptime.strftime d) = Strptime.strftime d)
    by now apply t_24_of_HH_MM_SS, is_HH_MM_SS_strftime.
  split; [exact T|]. unfold accepted, key.
  rewrite T, (every_day_at_strftime d V).
  split; [reflexivity|]. split; [reflexivity|].
  destruct d as [h m s]. unfold valid_time in V. cbn [hour minute second] in *.
  rewrite !andb_true_iff, !Nat.leb_le in V. destruct V as [[Hh Hm] Hs].
  destruct (tens_units h) as (Th & Uh & _); [lia|].
  destruct (tens_units m) as (Tm & Um & _); [lia|].
  assert (T2 : t_24 (hh_mm h m) = hh_mm h m).
  { unfold t_24.
    assert (S : Str.strip (hh_mm h m) = hh_mm h m).
    { unfold hh_mm, Str.pad2, Str.strip. cbn [append Str.lstrip].
      rewrite (digit_not_space (Str.digit_char (h / 10)))
        by now apply isdigit_digit_char.
      cbn [Str.rstrip].
      rewrite (digit_not_space (Str.digit_char (m mod 10)))
        by now apply isdigit_digit_char.
      reflexivity. }
    rewrite S.
    assert (R : raised (Strptime.strptime (hh_mm h m)) = true).
    { apply no_am_pm_raises. unfold hh_mm, Str.pad2. cbn [append ends_with_am_pm].
      apply am_pm_chars_digit. now apply isdigit_digit_char. }
    now destruct (Strptime.strptime (hh_mm h m)). }
  rewrite T2, (every_day_at_hh_mm h m Hh Hm). repeat split; reflexivity.
Qed.

(** ** Further properties of registration and sending *)

Lemma add_jobs_env (phone medicine : string) (times : list string) (w : World) :
  http_log (env (snd (add_jobs phone medicine times w))) = http_log (env w)
  /\ stdout (env (snd (add_jobs phone medicine times w))) =
       (stdout (env w) ++ map scheduled_line (accepted_prefix times))%list.
Proof.
  revert w. induction times as [|t times IH]; intros w.
  - cbn. now rewrite app_nil_r.
  - cbn [add_jobs accepted_prefix]. unfold add_job, accepted.
    destruct (Schedule.every_day_at (t_24 t)) as [tm|x]; cbn [raised negb].
    + destruct (IH (mk_World (Schedule.do tm (job phone medicine t) (jobs w))
                      (print ("⏰ Reminder scheduled at " ++ t_24 t
                                ++ " (original: " ++ t ++ ")") (env w)))) as [L O].
      rewrite L, O. cbn [env print http_log stdout map]. split; [reflexivity|].
      now rewrite <- app_assoc.
    + cbn. now rewrite app_nil_r.
Qed.

(** X5.  Registering sends nothing: the call makes no HTTP request.  It
    prints one line per job it adds, in order, each showing the key and the
    entry as given; and it adds as many jobs as it prints lines. *)
Theorem schedule_reminder_prints_and_sends_nothing
        (phone medicine : string) (times : list string) (w : World) :
  http_log (env (snd (schedule_reminder phone medicine times w))) = http_log (env w)
  /\ stdout (env (snd (schedule_reminder phone medicine times w))) =
       (stdout (env w) ++ map scheduled_line (accepted_prefix times))%list
  /\ length (jobs (snd (schedule_reminder phone medicine times w))) =
       length (jobs w) + length (accepted_prefix times).
Proof.
  rewrite schedule_reminder_snd.
  destruct (add_jobs_env phone medicine times w) as [L O].
  split; [exact L|]. split; [exact O|].
  now rewrite add_jobs_jobs, length_app, length_map.
Qed.

(** X6.  Every call of the sender makes exactly one request, to the
    address [messages/chat] under the configured base, announced as a
    form; it prints its success line exactly when the status it returns
    is the success status, and nothing otherwise. *)
Theorem send_whatsapp_effects (data : WhatsAppRequest) (e : Env) :
  http_log (snd (send_whatsapp data e)) = (http_log e ++ [post_request data])%list
  /\ req_url (post_request data) = ULTRAMSG_URL ++ "messages/chat"
  /\ req_headers (post_request data) =
       [("content-type", "application/x-www-form-urlencoded")]
  /\ exists d, fst (send_whatsapp data e) = Ret d
               /\ stdout (snd (send_whatsapp data e)) =
                    if succeeded d
                    then (stdout e ++ [("✅ WhatsApp sent: " ++ message data)%string])%list
                    else stdout e.
Proof.
  split; [now destruct (send_whatsapp_returns data e) as (d & _ & L)|].
  split; [reflexivity|]. split; [reflexivity|].
  unfold send_whatsapp.
  destruct (requests_post (http_log e) (post_request data)) as [c text|ex].
  - destruct (c =? 200); eexists; split; reflexivity.
  - eexists; split; reflexivity.
Qed.

(** ** Further properties of the loop *)




(** X8.  Polling [a + b] times is polling [a] times and then, if no job
    function raised, [b] more times from where the clock and the state then
    are; an exception in the first part is the outcome of the whole. *)
Theorem run_schedule_split (should_run : nat -> datetime -> bool)
        (js : list Schedule.Job) (now a b : nat) (e : Env) :
  run_schedule should_run js now (a + b) e =
    match run_schedule should_run js now a e with
    | (Ret _, e') => run_schedule should_run js (now + a) b e'
    | (Raise x, e') => (Raise x, e')
    end.
Proof.
  revert now e. induction a as [|a IH]; intros now e.
  - cbn. now rewrite Nat.add_0_r.
  - cbn [Nat.add run_schedule].
    destruct (Schedule.run_pending should_run now js e) as [[u|x] e1]; [|reflexivity].
    rewrite IH. now replace (S now + a) with (now + S a) by lia.
Qed.

Lemma runnable_none (should_run : nat -> datetime -> bool) (now : nat)
      (js : list Schedule.Job) :
  (forall j, In j js -> should_run now (Schedule.at_time j) = false) ->
  Schedule.runnable_jobs should_run now js = [].
Proof.
  unfold Schedule.runnable_jobs. induction js as [|j js IH]; [reflexivity|].
  intros H. cbn [filter]. rewrite (H j) by now left.
  apply IH. intros j' Hj. apply H. now right.
Qed.

(** X9.  A job that is not due is not run: while no job of the registry
    is due, the polls change nothing and call no job function, whatever
    the job functions would do. *)
Theorem run_schedule_idle (should_run : nat -> datetime -> bool)
        (js : list Schedule.Job) (now cycles : nat) (e : Env) :
  (forall i j, i < cycles -> In j js ->
               should_run (now + i) (Schedule.at_time j) = false) ->
  run_schedule should_run js now cycles e = (Ret tt, e).
Proof.
  revert now. induction cycles as [|cycles IH]; intros now H; [reflexivity|].
  cbn [run_schedule]. unfold Schedule.run_pending.
  rewrite runnable_none.
  - cbn [Schedule.run_all]. apply IH. intros i j Hi Hj.
    replace (S now + i) with (now + S i) by lia. apply H; [lia | exact Hj].
  - intros j Hj. rewrite <- (Nat.add_0_r now). apply H; [lia | exact Hj].
Qed.

Lemma run_schedule_of_reminders (should_run : nat -> datetime -> bool)
      (js : list Schedule.Job) (now cycles : nat) (e : Env) :
  Forall is_reminder js -> fst (run_schedule should_run js now cycles e) = Ret tt.
Proof.
  intros F. revert now e. induction cycles as [|cycles IH]; intros now e; [reflexivity|].
  cbn [run_schedule]. unfold Schedule.run_pending.
  destruct (run_all_reminders (Schedule.runnable_jobs should_run now js) e) as [R _];
    [now apply runnable_reminders|].
  destruct (Schedule.run_all _ e) as [[u|x] e1]; [apply IH | discriminate R].
Qed.

Lemma register_all_reminders (calls : list (string * string * list string)) (w : World) :
  Forall is_reminder (jobs w) -> Forall is_reminder (jobs (register_all calls w)).
Proof.
  intros F. rewrite register_all_jobs. apply Forall_app. split; [exact F|].
  apply Forall_flat_map, Forall_forall. intros [[phone medicine] times] _.
  cbn [fst snd triggers_of]. apply Forall_map, Forall_forall. intros t _.
  now exists phone, medicine, t.
Qed.

(** X10.  Whatever calls the tool receives, with whatever entries, the
    registry it builds from an empty one holds reminder jobs only, and the
    loop over it is still running after any number of polls, whatever the
    gateway answers. *)
Theorem loop_survives_any_registrations
        (calls : list (string * string * list string)) (e0 : Env)
        (should_run : nat -> datetime -> bool) (now cycles : nat) (e : Env) :
  Forall is_reminder (jobs (register_all calls (mk_World [] e0)))
  /\ fst (run_schedule should_run (jobs (register_all calls (mk_World [] e0)))
                       now cycles e) = Ret tt.
Proof.
  assert (F : Forall is_reminder (jobs (register_all calls (mk_World [] e0))))
    by (apply register_all_reminders; constructor).
  split; [exact F | now apply run_schedule_of_reminders].
Qed.

(** ** Further properties of the request body *)





(** ** Properties of the endpoint and of start-up *)

(** X13.  The endpoint hands the agent a text that contains the medicine
    name, the phone and the list of times as Python prints it.  When the
    agent returns, the answer carries the agent's output and always the
    status [Reminders scheduled], and the registry and the HTTP traffic are
    as the agent left them; when the agent raises, so does the endpoint. *)
Theorem create_reminder_reports_agent_output
        (Runner_run : string -> World -> result string * World)
        (details : ReminderInput.t) (w : World) :
  (forall out w', Runner_run (user_input details) w = (Ret out, w') ->
     fst (create_reminder Runner_run details w) =
       Ret [("response", out); ("status", "Reminders scheduled ✔ ")]
     /\ jobs (snd (create_reminder Runner_run details w)) = jobs w'
     /\ http_log (env (snd (create_reminder Runner_run details w))) = http_log (env w'))
  /\ (forall x w', Runner_run (user_input details) w = (Raise x, w') ->
        create_reminder Runner_run details w = (Raise x, w'))
  /\ Str.contains (ReminderInput.medicine_name details) (user_input details) = true
  /\ Str.contains (ReminderInput.phone details) (user_input details) = true
  /\ Str.contains (Repr.repr_list (ReminderInput.dose_times details))
                  (user_input details) = true.
Proof.
  split; [|split].
  - intros out w' H. unfold create_reminder. rewrite H. repeat split; reflexivity.
  - intros x w' H. unfold create_reminder. now rewrite H.
  - unfold user_input. repeat split; apply occurs_contains.
    + do 4 apply occurs_left. apply occurs_right, occurs_refl.
    + do 10 apply occurs_left. apply occurs_right, occurs_refl.
    + do 7 apply occurs_left. apply occurs_right, occurs_refl.
Qed.

(** X14.  Start-up passes exactly when the API key, the gateway address
    and the gateway token are all set and not empty: an empty value counts
    as missing.  A missing API key is the error reported, whatever the
    other two are; the settings then in force are the values read. *)
Theorem startup_requires_all_settings (getenv : string -> option string) :
  (raised (startup getenv) = false <->
   truthy (getenv "API_KEY") = true /\ truthy (getenv "Api_Url") = true
   /\ truthy (getenv "Token") = true)
  /\ (truthy (getenv "API_KEY") = false ->
      startup getenv = Raise (ValueError "❌ OPENAI_API_KEY is not set"))
  /\ (truthy (getenv "API_KEY") = true ->
      truthy (getenv "Api_Url") = false \/ truthy (getenv "Token") = false ->
      startup getenv = Raise (ValueError "❌ WhatsApp configuration missing"))
  /\ (forall c, startup getenv = Ret c ->
      getenv "API_KEY" = Some (OPENAI_API_KEY c) /\ getenv "Api_Url" = Some (Api_Url c)
      /\ getenv "Token" = Some (Token c)
      /\ OPENAI_API_KEY c <> EmptyString /\ Api_Url c <> EmptyString
      /\ Token c <> EmptyString).
Proof.
  unfold startup.
  destruct (getenv "API_KEY") as [[|k1 k]|], (getenv "Api_Url") as [[|u1 u]|],
    (getenv "Token") as [[|t1 t]|]; cbn.
  all: split; [split; [try discriminate; auto | intros (A & B & C); try discriminate; auto]|].
  all: split; [try discriminate; auto|].
  all: split; [try (intros; reflexivity); try discriminate; intros _ [H|H]; discriminate|].
  all: intros c H; try discriminate.
  inversion H; subst; cbn. repeat split; discriminate.
Qed.

End Program.

(** ** The statements at concrete inputs *)

Lemma send_whatsapp_outcome_witness :
  (exists d, fst (send_whatsapp example_url example_token gateway_200
                    (mk_WhatsAppRequest "+1555" "hi") env0) = Ret d
             /\ succeeded d = true)
  /\ (exists d, fst (send_whatsapp example_url example_token gateway_500
                       (mk_WhatsAppRequest "+1555" "hi") env0) = Ret d
                /\ succeeded d = false /\ detail d = "❌ Failed: server error")
  /\ (exists d, fst (send_whatsapp example_url example_token gateway_down
                       (mk_WhatsAppRequest "+1555" "hi") env0) = Ret d
                /\ succeeded d = false /\ detail d = "❌ Error: connection refused").
Proof.
  split; [|split].
  - destruct (send_whatsapp_outcome example_url example_token gateway_200
                (mk_WhatsAppRequest "+1555" "hi") env0) as (_ & H & _).
    apply (H "sent"). reflexivity.
  - destruct (send_whatsapp_outcome example_url example_token gateway_500
                (mk_WhatsAppRequest "+1555" "hi") env0) as (_ & _ & H & _).
    apply (H 500 "server error"); [reflexivity | lia].
  - destruct (send_whatsapp_outcome example_url example_token gateway_down
                (mk_WhatsAppRequest "+1555" "hi") env0) as (_ & _ & _ & H).
    apply (H (OtherException "ConnectionError" "connection refused")). reflexivity.
Defined.

(** The entry ["not-a-time"] fails the 12-hour parse, its raw string goes
    to the scheduler, and the scheduler's refusal leaves the call: an error
    is raised and nothing is registered. *)
Lemma unparseable_entry_raises :
  t_24 "not-a-time" = "not-a-time"
  /\ raised (fst (schedule_reminder example_url example_token gateway_200
                    "+1555" "Aspirin" ["not-a-time"] world0)) = true
  /\ snd (schedule_reminder example_url example_token gateway_200
            "+1555" "Aspirin" ["not-a-time"] world0) = world0
  /\ raised (fst (schedule_reminder example_url example_token gateway_200
                    "+1555" "Aspirin" ["09:00:00"; "25:00:00"; "10:00:00"] world0)) = true
  /\ length (jobs (snd (schedule_reminder example_url example_token gateway_200
                    "+1555" "Aspirin" ["09:00:00"; "25:00:00"; "10:00:00"] world0))) = 1.
Proof. repeat split; reflexivity. Qed.





Lemma registration_is_additive_witness :
  jobs (register_all example_url example_token gateway_200
          [("+1555", "Aspirin", ["09:00:00"]); ("+1555", "Aspirin", ["09:00:00"])] world0)
  = [trigger example_url example_token gateway_200 "+1555" "Aspirin" "09:00:00";
     trigger example_url example_token gateway_200 "+1555" "Aspirin" "09:00:00"]
  /\ length (http_log (snd (Schedule.run_pending always_due 0
       [trigger example_url example_token gateway_200 "+1555" "Aspirin" "09:00:00";
        trigger example_url example_token gateway_200 "+1555" "Aspirin" "09:00:00"]
       env0))) = 2
  /\ length (jobs (register_all example_url example_token gateway_200
       [("+1555", "Aspirin", ["09:00:00"; "9:05 PM"]); ("+1666", "Panadol", ["22:10:00"])]
       world0)) = 3.
Proof.
  destruct (registration_is_additive example_url example_token gateway_200
              "+1555" "Aspirin" "09:00:00" world0) as (A & B & C); [reflexivity|].
  split; [exact A|]. split.
  - destruct (B always_due 0 env0) as [_ L]; [reflexivity|]. now rewrite L.
  - destruct (C [("+1555", "Aspirin", ["09:00:00"; "9:05 PM"]);
                 ("+1666", "Panadol", ["22:10:00"])] world0) as [_ L]; [reflexivity|].
    exact L.
Defined.

(** Two calls with an entry the scheduler refuses leave the registry
    empty. *)
Lemma refused_entry_adds_no_job :
  accepted "not-a-time" = false
  /\ jobs (register_all example_url example_token gateway_200
             [("+1555", "Aspirin", ["not-a-time"]); ("+1555", "Aspirin", ["not-a-time"])]
             world0) = [].
Proof. split; reflexivity. Qed.



(** ** The further properties at concrete inputs *)

(** An agent that makes the tool call and answers with its confirmation,
    and one whose run fails. *)
Definition agent_calls_tool : string -> World -> result string * World :=
  fun _ w =>
    schedule_reminder example_url example_token gateway_200 "+1555" "Aspirin" ["09:00:00"] w.

Definition agent_fails : string -> World -> result string * World :=
  fun _ w => (Raise (OtherException "APIError" "quota exceeded"), w).

Definition example_details : ReminderInput.t :=
  ReminderInput.mk "Aspirin" ["09:00:00"] "+1555".

Definition env_full (name : string) : option string :=
  if String.eqb name "API_KEY" then Some "key"
  else if String.eqb name "Api_Url" then Some example_url
  else if String.eqb name "Token" then Some example_token
  else None.

Definition env_no_key (name : string) : option string :=
  if String.eqb name "API_KEY" then None else env_full name.

Definition env_empty_token (name : string) : option string :=
  if String.eqb name "Token" then Some EmptyString else env_full name.

Definition never_due : nat -> datetime -> bool := fun _ _ => false.

Lemma parsed_entry_is_accepted_witness :
  accepted " 9:05 am " = true /\ key " 9:05 am " = mk_datetime 9 5 0.
Proof.
  destruct (parsed_entry_is_accepted " 9:05 am " (mk_datetime 9 5 0))
    as (_ & _ & A & K); [reflexivity|].
  split; assumption.
Defined.

Lemma entry_without_am_pm_unchanged_witness :
  t_24 "14:00" = "14:00" /\ is_HH_MM_SS (t_24 "9:05 AM") = true.
Proof.
  destruct (entry_without_am_pm_unchanged "14:00") as [A _].
  destruct (entry_without_am_pm_unchanged "9:05 AM") as [_ B].
  split; [apply A; reflexivity|].
  apply B. intros H. vm_compute in H. discriminate H.
Defined.

Lemma twenty_four_hour_entry_keeps_its_time_witness :
  key (Strptime.strftime (mk_datetime 22 10 0)) = mk_datetime 22 10 0
  /\ key (hh_mm 22 10) = mk_datetime 22 10 0.
Proof.
  destruct (twenty_four_hour_entry_keeps_its_time (mk_datetime 22 10 0))
    as (_ & _ & A & _ & _ & B); [reflexivity|].
  split; assumption.
Defined.

Lemma run_schedule_idle_witness :
  run_schedule never_due [Schedule.mk_Job (mk_datetime 9 0 0) failing_job] 0 5 env0
  = (Ret tt, env0).
Proof.
  apply run_schedule_idle. intros i j _ _. reflexivity.
Defined.



Lemma create_reminder_reports_agent_output_witness :
  fst (create_reminder agent_calls_tool example_details world0)
  = Ret [("response", "✅ Reminders for Aspirin scheduled at ['09:00:00'] for +1555");
         ("status", "Reminders scheduled ✔ ")]
  /\ length (jobs (snd (create_reminder agent_calls_tool example_details world0))) = 1
  /\ create_reminder agent_fails example_details world0
     = (Raise (OtherException "APIError" "quota exceeded"), world0).
Proof.
  destruct (create_reminder_reports_agent_output agent_calls_tool example_details world0)
    as (A & _).
  destruct (create_reminder_reports_agent_output agent_fails example_details world0)
    as (_ & B & _).
  destruct (A _ _ eq_refl) as (R & J & _).
  split; [exact R|]. split; [now rewrite J|].
  apply B. reflexivity.
Defined.

Lemma startup_requires_all_settings_witness :
  raised (startup env_full) = false
  /\ startup env_no_key = Raise (ValueError "❌ OPENAI_API_KEY is not set")
  /\ startup env_empty_token = Raise (ValueError "❌ WhatsApp configuration missing")
  /\ Token (mk_Settings "key" example_url example_token) <> EmptyString.
Proof.
  destruct (startup_requires_all_settings env_full) as ((_ & A) & _ & _ & D).
  destruct (startup_requires_all_settings env_no_key) as (_ & B & _).
  destruct (startup_requires_all_settings env_empty_token) as (_ & _ & C & _).
  split; [apply A; repeat split; reflexivity|].
  split; [apply B; reflexivity|].
  split; [apply C; [reflexivity | right; reflexivity]|].
  apply (D (mk_Settings "key" example_url example_token)). reflexivity.
Defined.
